(** * jenkins-demo-app: the HTTP responder of [server.js]

    A shallow embedding of [server.js] (an Express application with two
    GET routes, a port read from the environment and an exported server
    handle) together with the part of the Express / Node platform that the
    program calls: [process.env], the [||] operator, [app.get],
    [res.json], [app.listen] and [server.close]. *)

From Stdlib Require Import Ascii String ZArith NArith.
From stdpp Require Import base option list gmap strings.

Local Open Scope string_scope.

(** ** JavaScript values *)

(** The primitive values that occur in [server.js]: what a read of
    [process.env.X] yields ([undefined] or a string) and the literals
    [3000] and ['1.0.0']. *)
Inductive JsValue :=
| VUndefined
| VString (s : string)
| VNumber (n : Z).

Global Instance JsValue_eq_dec : EqDecision JsValue.
Proof. solve_decision. Defined.

(** ToBoolean: [undefined], the empty string and [0] are falsy. *)
Definition truthy (v : JsValue) : bool :=
  match v with
  | VUndefined => false
  | VString s => negb (String.eqb s "")
  | VNumber n => negb (Z.eqb n 0)
  end.

(** [a || b]: the left operand when it is truthy, the right one otherwise. *)
Definition js_or (a b : JsValue) : JsValue :=
  if truthy a then a else b.

(** ** process.env *)

(** [process.env] is an object whose property values are always strings;
    a variable that is not set reads as [undefined]. *)
Abbreviation Env := (gmap string string).

Definition env_get (env : Env) (name : string) : JsValue :=
  match env !! name with
  | Some s => VString s
  | None => VUndefined
  end.

(** ** JSON bodies *)

#[warnings="-register-all"] Inductive Json :=
| JString (s : string)
| JNumber (n : Z)
| JObject (fields : list (string * Json)).

Definition json_of_value (v : JsValue) : option Json :=
  match v with
  | VUndefined => None
  | VString s => Some (JString s)
  | VNumber n => Some (JNumber n)
  end.

(** The JSON value of an object literal: properties in insertion order,
    those whose value is [undefined] left out (as [JSON.stringify] does). *)
Definition json_of_object (props : list (string * JsValue)) : Json :=
  JObject (omap (fun kv => pair (fst kv) <$> json_of_value (snd kv)) props).

Fixpoint json_field (name : string) (fields : list (string * Json)) : option Json :=
  match fields with
  | [] => None
  | (k, v) :: rest => if String.eqb k name then Some v else json_field name rest
  end.

(** [body.name] of a parsed JSON body. *)
Definition json_get (name : string) (j : Json) : option Json :=
  match j with
  | JObject fields => json_field name fields
  | _ => None
  end.

(** ** Requests and responses *)

Inductive Method := GET | HEAD | POST | PUT | DELETE | PATCH | OPTIONS.

Global Instance Method_eq_dec : EqDecision Method.
Proof. solve_decision. Defined.

Record Request := mkRequest {
  req_method : Method;
  req_path : string   (* the pathname, query string removed *)
}.

(** The [res] object a handler writes to. A fresh one has status 200 and
    nothing sent. *)
Record Res := mkRes {
  statusCode : nat;
  sent : option Json
}.

Definition fresh_res : Res := {| statusCode := 200; sent := None |}.

(** [res.json(obj)]: sends [obj] serialised as JSON, status untouched. *)
Definition res_json (props : list (string * JsValue)) (res : Res) : Res :=
  {| statusCode := statusCode res; sent := Some (json_of_object props) |}.

(** What the client receives. *)
Inductive Response :=
| Reply (status : nat) (body : option Json)  (* written by a route handler *)
| AllowReply (allowed : list Method)         (* Express' automatic answer to OPTIONS *)
| NotFound.                                  (* Express' default not-found handling *)

Definition status_of (r : Response) : nat :=
  match r with
  | Reply s _ => s
  | AllowReply _ => 200
  | NotFound => 404
  end.

Definition body_of (r : Response) : option Json :=
  match r with
  | Reply _ b => b
  | _ => None
  end.

(** ** Express: application, routes, dispatch *)

Definition Handler := Env -> Request -> Res -> Res.

Record Route := mkRoute {
  route_method : Method;
  route_path : string;
  route_handler : Handler
}.

(** The two application settings that govern path matching. *)
Record Settings := mkSettings {
  case_sensitive_routing : bool;
  strict_routing : bool
}.

Record App := mkApp {
  settings : Settings;
  stack : list Route
}.

(** [express()]: both routing settings are disabled by default. *)
Definition express : App :=
  {| settings := {| case_sensitive_routing := false; strict_routing := false |};
     stack := [] |}.

(** [app.get(path, handler)] appends a GET route to the stack. *)
Definition app_get (path : string) (h : Handler) (a : App) : App :=
  {| settings := settings a;
     stack := stack a ++ [ {| route_method := GET; route_path := path; route_handler := h |} ] |}.

Definition lower_ascii (c : ascii) : ascii :=
  let n := N_of_ascii c in
  if (N.leb 65 n && N.leb n 90)%bool then ascii_of_N (n + 32) else c.

Fixpoint lower (s : string) : string :=
  match s with
  | EmptyString => EmptyString
  | String c rest => String (lower_ascii c) (lower rest)
  end.

Fixpoint ends_with_slash (s : string) : bool :=
  match s with
  | EmptyString => false
  | String c EmptyString => Ascii.eqb c "/"
  | String _ rest => ends_with_slash rest
  end.

Fixpoint drop_last (s : string) : string :=
  match s with
  | EmptyString => EmptyString
  | String _ EmptyString => EmptyString
  | String c rest => String c (drop_last rest)
  end.

(** Matching of a request path against a literal route path (no
    parameters, no wildcards: the only kind [server.js] registers).
    Without case-sensitive routing letter case is ignored; without strict
    routing one trailing slash is optional. *)
Definition path_match (o : Settings) (pattern path : string) : bool :=
  let fold s := if case_sensitive_routing o then s else lower s in
  let pat := fold pattern in
  let p := fold path in
  if strict_routing o then String.eqb p pat
  else if ends_with_slash pat
       then (String.eqb p pat || String.eqb p (drop_last pat))%bool
       else (String.eqb p pat || String.eqb p (pat ++ "/"))%bool.

(** A GET route also answers HEAD requests. *)
Definition handles_method (r : Route) (m : Method) : bool :=
  match m with
  | HEAD => bool_decide (route_method r = HEAD) || bool_decide (route_method r = GET)
  | _ => bool_decide (route_method r = m)
  end.

(** The methods a route offers in an automatic OPTIONS answer. *)
Definition route_options (r : Route) : list Method :=
  match route_method r with
  | GET => [GET; HEAD]
  | m => [m]
  end.

Definition route_matches (o : Settings) (r : Route) (req : Request) : bool :=
  path_match o (route_path r) (req_path req) && handles_method r (req_method req).

(** The router: the first route of the stack matching path and method
    handles the request; when none does, an OPTIONS request is answered
    with the methods of the routes matching the path, and every other
    request falls through to the default not-found handling. *)
Definition dispatch (a : App) (env : Env) (req : Request) : Response :=
  match List.find (fun r => route_matches (settings a) r req) (stack a) with
  | Some r =>
      let res := route_handler r env req fresh_res in
      Reply (statusCode res)
            (if bool_decide (req_method req = HEAD) then None else sent res)
  | None =>
      let allowed :=
        remove_dups
          (mbind route_options
             (filter (fun r => path_match (settings a) (route_path r) (req_path req) = true)
                     (stack a))) in
      if bool_decide (req_method req = OPTIONS) && negb (bool_decide (allowed = []))
      then AllowReply allowed
      else NotFound
  end.

(** ** The program: configuration and routes of [server.js] *)

(** [const PORT = process.env.PORT || 3000;] *)
Definition PORT (env : Env) : JsValue :=
  js_or (env_get env "PORT") (VNumber 3000).

(** [(req, res) => res.json({ message: ..., version: process.env.VERSION || '1.0.0' })] *)
Definition root_handler : Handler := fun env _ res =>
  res_json [ ("message", VString "Hello from Jenkins CI/CD!");
             ("version", js_or (env_get env "VERSION") (VString "1.0.0")) ] res.

(** [(req, res) => res.json({ status: 'healthy' })] *)
Definition health_handler : Handler := fun _ _ res =>
  res_json [ ("status", VString "healthy") ] res.

(** [const app = express(); app.get('/', ...); app.get('/health', ...);] *)
Definition app : App :=
  app_get "/health" health_handler (app_get "/" root_handler express).

Definition root_body (version : string) : Json :=
  JObject [ ("message", JString "Hello from Jenkins CI/CD!"); ("version", JString version) ].

Definition health_body : Json :=
  JObject [ ("status", JString "healthy") ].

(** ** Node: listening sockets *)

(** What a server can be bound to: a TCP port or a named pipe. *)
Inductive Endpoint :=
| Tcp (p : N)
| Pipe (name : string).

Global Instance Endpoint_eq_dec : EqDecision Endpoint.
Proof. solve_decision. Defined.

Global Instance Endpoint_countable : Countable Endpoint.
Proof.
  refine (inj_countable'
            (fun e => match e with Tcp p => inl p | Pipe s => inr s end)
            (fun x => match x with inl p => Tcp p | inr s => Pipe s end) _).
  intros []; reflexivity.
Defined.

(** The endpoints in use on the host, shared by every process on it. *)
Abbreviation OS := (gset Endpoint).

(** A line written by [console.log]. *)
Inductive LogLine :=
| ServerRunningOnPort (p : JsValue).  (* `Server running on port ${PORT}` *)

(** The state of one process running [server.js]. *)
Record Process := mkProcess {
  proc_env : Env;                  (* process.env, mutable *)
  proc_PORT : JsValue;             (* the constant PORT *)
  proc_address : option Endpoint;  (* where the exported server listens, if it does *)
  proc_stdout : list LogLine
}.

Inductive StartResult :=
| Started (p : Process) (os : OS)
| ListenFailed.   (* listen threw or the server emitted 'error': the program has no code for either *)

(** What happens to a running process: a request arrives on a new
    connection, code in the
    same process (such as a test that required the module) assigns or
    deletes a variable of [process.env], or calls [close] on the
    exported server. *)
Inductive Event :=
| Incoming (req : Request)
| SetEnv (name value : string)
| DeleteEnv (name : string)
| Close.

Definition is_request (e : Event) : Prop :=
  match e with Incoming _ => True | _ => False end.

Definition touches_env (e : Event) : Prop :=
  match e with SetEnv _ _ | DeleteEnv _ => True | _ => False end.

Global Instance is_request_dec e : Decision (is_request e).
Proof. destruct e; simpl; apply _. Defined.

Global Instance touches_env_dec e : Decision (touches_env e).
Proof. destruct e; simpl; apply _. Defined.

(** One bind attempt on an endpoint: it fails when the endpoint is in use. *)
Definition bind (a : Endpoint) (os : OS) : option OS :=
  if bool_decide (a ∈ os) then None else Some ({[ a ]} ∪ os).

Section Platform.

(** How the platform reads a string given as the port: a TCP port when
    the string is numeric ([None] when that number is no valid port),
    a pipe name otherwise. *)
Variable port_of_string : string -> option Endpoint.

(** The port the host hands out when port 0 is asked for. *)
Variable pick_port : OS -> option N.

Definition listen_target (v : JsValue) : option Endpoint :=
  match v with
  | VNumber n =>
      if bool_decide (0 ≤ n ≤ 65535)%Z then Some (Tcp (Z.to_N n)) else None
  | VString s => port_of_string s
  | VUndefined => Some (Tcp 0)
  end.

(** Port 0 asks the host for a port of its choice. *)
Definition resolve (target : Endpoint) (os : OS) : option Endpoint :=
  match target with
  | Tcp 0 => Tcp <$> pick_port os
  | _ => Some target
  end.

(** [server.listen(port, callback)]: one bind attempt; the callback runs
    once the server is listening. *)
Definition listen (port : JsValue) (os : OS) : option (Endpoint * OS) :=
  target ← listen_target port;
  a ← resolve target os;
  os' ← bind a os;
  Some (a, os').

(** Loading [server.js]: PORT is computed, the routes are registered,
    [app.listen(PORT, ...)] is called once and the server is exported. *)
Definition start (env : Env) (os : OS) : StartResult :=
  let port := PORT env in
  match listen port os with
  | Some (a, os') =>
      Started {| proc_env := env;
                 proc_PORT := port;
                 proc_address := Some a;
                 proc_stdout := [ ServerRunningOnPort port ] |} os'
  | None => ListenFailed
  end.

End Platform.

(** [server.close()] on the exported server: the endpoint is given back
    to the host. *)
Definition close (p : Process) (os : OS) : Process * OS :=
  match proc_address p with
  | Some a =>
      ({| proc_env := proc_env p; proc_PORT := proc_PORT p;
          proc_address := None; proc_stdout := proc_stdout p |},
       os ∖ {[ a ]})
  | None => (p, os)
  end.

Definition set_env (f : Env -> Env) (p : Process) : Process :=
  {| proc_env := f (proc_env p); proc_PORT := proc_PORT p;
     proc_address := proc_address p; proc_stdout := proc_stdout p |}.

(** The answer to a request arriving on a new connection: none when the
    server is not listening. *)
Definition respond (p : Process) (req : Request) : option Response :=
  match proc_address p with
  | Some _ => Some (dispatch app (proc_env p) req)
  | None => None
  end.

Definition step (w : Process * OS) (e : Event) : (Process * OS) * option Response :=
  let '(p, os) := w in
  match e with
  | Incoming req => ((p, os), respond p req)
  | SetEnv k v => ((set_env (insert k v) p, os), None)
  | DeleteEnv k => ((set_env (delete k) p, os), None)
  | Close => (close p os, None)
  end.

Definition run (w : Process * OS) (events : list Event) : Process * OS :=
  fold_left (fun w e => fst (step w e)) events w.

(** ** Reference values for the statements below *)

(** The string that [process.env.VERSION || '1.0.0'] evaluates to under
    [env]; lemma [version_expression] relates it to the handler's expression. *)
Definition version_of (env : Env) : string :=
  match env !! "VERSION" with
  | Some s => if String.eqb s "" then "1.0.0" else s
  | None => "1.0.0"
  end.

Definition root_request : Request := mkRequest GET "/".
Definition health_request : Request := mkRequest GET "/health".

(** The same application with both routing settings enabled. *)
Definition exact_app : App :=
  {| settings := {| case_sensitive_routing := true; strict_routing := true |};
     stack := stack app |}.

(** A concrete platform for the examples. It is used at strings of
    decimal digits only, which it reads as ports; other non-empty
    strings are taken as pipe names here (the real platform also reads
    other numeric forms as ports). Port 0 is answered with the first
    free port among 49152..49155. *)
Fixpoint digits_value (acc : N) (s : string) : option N :=
  match s with
  | EmptyString => Some acc
  | String c rest =>
      let n := N_of_ascii c in
      if (N.leb 48 n && N.leb n 57)%bool
      then digits_value (10 * acc + (n - 48)) rest
      else None
  end.

Definition sample_port_of_string (s : string) : option Endpoint :=
  match s with
  | EmptyString => None
  | _ =>
      match digits_value 0 s with
      | Some n => if N.leb n 65535 then Some (Tcp n) else None
      | None => Some (Pipe s)
      end
  end.

Definition sample_pick_port (os : OS) : option N :=
  List.find (fun q => bool_decide (Tcp q ∉ os)) [49152; 49153; 49154; 49155]%N.

Definition sample_start : Env -> OS -> StartResult :=
  start sample_port_of_string sample_pick_port.

(** An event that neither closes the server nor writes the variable
    VERSION of [process.env]. *)
Definition keeps_version (e : Event) : Prop :=
  match e with
  | Incoming _ => True
  | SetEnv name _ => name ≠ "VERSION"
  | DeleteEnv name => name ≠ "VERSION"
  | Close => False
  end.

(** ** Callbacks as the runtime runs them *)

(** What the body of a callback can reach while it runs: the process,
    with its environment and its output, and the [res] object of the
    request. *)
Record CallbackState := mkCallbackState {
  cb_process : Process;
  cb_res : Res
}.

(** A statement of a callback body: it may change whatever it can reach. *)
Definition Statement := CallbackState -> CallbackState.

(** [process.env.NAME], read while the callback runs. *)
Definition process_env (name : string) (st : CallbackState) : JsValue :=
  env_get (proc_env (cb_process st)) name.

(** [res.json(obj)] as a statement. *)
Definition call_res_json (props : list (string * JsValue)) : Statement := fun st =>
  {| cb_process := cb_process st; cb_res := res_json props (cb_res st) |}.

(** [console.log(line)] as a statement. *)
Definition console_log (line : LogLine) : Statement := fun st =>
  {| cb_process :=
       {| proc_env := proc_env (cb_process st);
          proc_PORT := proc_PORT (cb_process st);
          proc_address := proc_address (cb_process st);
          proc_stdout := (proc_stdout (cb_process st) ++ [ line ])%list |};
     cb_res := cb_res st |}.

Definition Callback := Request -> Statement.

(** The body of the callback given to [app.get('/', ...)]. *)
Definition root_callback : Callback := fun _ st =>
  call_res_json
    [ ("message", VString "Hello from Jenkins CI/CD!");
      ("version", js_or (process_env "VERSION" st) (VString "1.0.0")) ] st.

(** The body of the callback given to [app.get('/health', ...)]. *)
Definition health_callback : Callback := fun _ st =>
  call_res_json [ ("status", VString "healthy") ] st.

(** The body of the callback given to [app.listen(PORT, ...)]. *)
Definition listen_callback : Statement := fun st =>
  console_log (ServerRunningOnPort (proc_PORT (cb_process st))) st.

(** An entry of the router's stack, with its callback as a statement. *)
Record Layer := mkLayer {
  layer_method : Method;
  layer_path : string;
  layer_callback : Callback
}.

(** The stack the two [app.get] calls of [server.js] build. *)
Definition app_layers : list Layer :=
  [ {| layer_method := GET; layer_path := "/"; layer_callback := root_callback |};
    {| layer_method := GET; layer_path := "/health"; layer_callback := health_callback |} ].

(** For comparison: a stack whose health callback also prints a line. *)
Definition logging_layers : list Layer :=
  [ {| layer_method := GET; layer_path := "/"; layer_callback := root_callback |};
    {| layer_method := GET; layer_path := "/health";
       layer_callback := fun req st => health_callback req (listen_callback st) |} ].

Definition method_handled (registered m : Method) : bool :=
  match m with
  | HEAD => bool_decide (registered = HEAD) || bool_decide (registered = GET)
  | _ => bool_decide (registered = m)
  end.

Definition methods_offered (registered : Method) : list Method :=
  match registered with
  | GET => [GET; HEAD]
  | m => [m]
  end.

Definition layer_matches (o : Settings) (l : Layer) (req : Request) : bool :=
  path_match o (layer_path l) (req_path req)
  && method_handled (layer_method l) (req_method req).

(** The router running a request: the callback of the first matching
    layer runs on the process and a fresh [res]; what it leaves behind
    is the new state of the process and the answer. Without a matching
    layer no callback runs. *)
Definition handle (o : Settings) (layers : list Layer) (p : Process) (req : Request)
    : Process * Response :=
  match List.find (fun l => layer_matches o l req) layers with
  | Some l =>
      let st := layer_callback l req {| cb_process := p; cb_res := fresh_res |} in
      (cb_process st,
       Reply (statusCode (cb_res st))
             (if bool_decide (req_method req = HEAD) then None else sent (cb_res st)))
  | None =>
      let allowed :=
        remove_dups
          (mbind (fun l => methods_offered (layer_method l))
             (filter (fun l => path_match o (layer_path l) (req_path req) = true) layers)) in
      (p,
       if bool_decide (req_method req = OPTIONS) && negb (bool_decide (allowed = []))
       then AllowReply allowed
       else NotFound)
  end.

(** Requests handled one after the other, each on the state the
    previous one left. *)
Fixpoint serve (o : Settings) (layers : list Layer) (p : Process) (reqs : list Request)
    : Process * list Response :=
  match reqs with
  | [] => (p, [])
  | req :: rest =>
      let '(p1, r) := handle o layers p req in
      let '(p2, rs) := serve o layers p1 rest in
      (p2, r :: rs)
  end.

(** ** The test suite of the repository (server.test.js) *)

(** [haystack.includes(needle)], which is what [toContain] checks on a
    string and what [grep] checks for a pattern without special
    characters. *)
Fixpoint includes (needle haystack : string) : bool :=
  match haystack with
  | EmptyString => String.prefix needle EmptyString
  | String _ rest => (String.prefix needle haystack || includes needle rest)%bool
  end.

(** [request(server).get(path)]: the response of the server under test;
    none when nothing answers. *)
Definition supertest_get (p : Process) (path : string) : option Response :=
  respond p (mkRequest GET path).

(** test('GET / returns welcome message'):
    [expect(response.status).toBe(200)] and
    [expect(response.body.message).toContain('Hello')]. *)
Definition test_root_returns_welcome_message (p : Process) : bool :=
  match supertest_get p "/" with
  | Some response =>
      (Nat.eqb (status_of response) 200
       && match body_of response ≫= json_get "message" with
          | Some (JString message) => includes "Hello" message
          | _ => false
          end)%bool
  | None => false
  end.

(** test('GET /health returns healthy status'):
    [expect(response.status).toBe(200)] and
    [expect(response.body.status).toBe('healthy')]. *)
Definition test_health_returns_healthy_status (p : Process) : bool :=
  match supertest_get p "/health" with
  | Some response =>
      (Nat.eqb (status_of response) 200
       && match body_of response ≫= json_get "status" with
          | Some (JString status) => String.eqb status "healthy"
          | _ => false
          end)%bool
  | None => false
  end.

(** describe('API Tests'): both tests, then [afterAll] closes the server.
    The result is the verdict and the state left behind. *)
Definition api_tests (w : Process * OS) : bool * (Process * OS) :=
  ((test_root_returns_welcome_message (fst w)
    && test_health_returns_healthy_status (fst w))%bool,
   close (fst w) (snd w)).

(** ** The pipeline (Jenkinsfile) *)

(** [grep -v pattern]: the lines that do not contain the pattern. *)
Definition grep_v (pattern : string) (lines : list string) : list string :=
  List.filter (fun line => negb (includes pattern line)) lines.

(** [tail -n +N]: the lines from the N-th on. *)
Definition tail_from (n : nat) (lines : list string) : list string :=
  drop (n - 1) lines.

Definition awk_blank (c : ascii) : bool :=
  (Ascii.eqb c " " || Ascii.eqb c "009")%bool.

Fixpoint skip_blanks (s : string) : string :=
  match s with
  | EmptyString => EmptyString
  | String c rest => if awk_blank c then skip_blanks rest else s
  end.

Fixpoint take_field (s : string) : string :=
  match s with
  | EmptyString => EmptyString
  | String c rest => if awk_blank c then EmptyString else String c (take_field rest)
  end.

(** [awk '{print $1}'] on one line: its first blank-separated field. *)
Definition awk_print_1 (line : string) : string :=
  take_field (skip_blanks line).

(** Stage 'Cleanup Old Images': what
    [docker images ... | grep -v latest | tail -n +6 | awk '{print $1}']
    hands to [xargs -r docker rmi], given the lines printed by
    [docker images] (one "ID TAG" line per image tag, newest first). *)
Definition cleanup_old_images (docker_images : list string) : list string :=
  awk_print_1 <$> tail_from 6 (grep_v "latest" docker_images).

(** [tr -d c]: every occurrence of the character removed. *)
Fixpoint tr_d (c : ascii) (s : string) : string :=
  match s with
  | EmptyString => EmptyString
  | String x rest => if Ascii.eqb x c then tr_d c rest else String x (tr_d c rest)
  end.

(** [String.trim()]: leading and trailing characters up to the space
    (code 32) removed. *)
Definition trim_blank (c : ascii) : bool := N.leb (N_of_ascii c) 32.

Fixpoint trim_start (s : string) : string :=
  match s with
  | EmptyString => EmptyString
  | String c rest => if trim_blank c then trim_start rest else s
  end.

Fixpoint trim_end (s : string) : string :=
  match s with
  | EmptyString => EmptyString
  | String c rest =>
      match trim_end rest with
      | EmptyString => if trim_blank c then EmptyString else String c EmptyString
      | kept => String c kept
      end
  end.

Definition trim (s : string) : string := trim_end (trim_start s).

Definition double_quote : ascii := "034"%char.
Definition newline : ascii := "010"%char.

(** Stage 'Version Bump': NEW_APP_VERSION is the standard output of the
    script [npm pkg get version | tr -d Q], where Q is the double quote
    character, with [.trim()] applied; here as a function of what
    [npm pkg get version] prints. *)
Definition NEW_APP_VERSION (npm_output : string) : string :=
  trim (tr_d double_quote npm_output).

(** * Properties *)

(** ** Values and configuration *)

Lemma js_or_string_default (s d : string) :
  js_or (VString s) (VString d) = VString (if String.eqb s "" then d else s).
Proof. unfold js_or; simpl. destruct (String.eqb s ""); reflexivity. Qed.

Lemma version_expression (env : Env) :
  js_or (env_get env "VERSION") (VString "1.0.0") = VString (version_of env).
Proof.
  unfold env_get, version_of.
  destruct (env !! "VERSION") as [s|]; [apply js_or_string_default | reflexivity].
Qed.

Lemma PORT_unset (env : Env) : env !! "PORT" = None -> PORT env = VNumber 3000.
Proof. intros H. unfold PORT, env_get. rewrite H. reflexivity. Qed.

Lemma PORT_empty (env : Env) : env !! "PORT" = Some "" -> PORT env = VNumber 3000.
Proof. intros H. unfold PORT, env_get. rewrite H. reflexivity. Qed.

Lemma PORT_set (env : Env) (s : string) :
  env !! "PORT" = Some s -> s ≠ "" -> PORT env = VString s.
Proof.
  intros H Hs. unfold PORT, env_get, js_or. rewrite H. simpl.
  destruct (String.eqb_spec s ""); [contradiction | reflexivity].
Qed.

(** ** Dispatch of the two routes *)

Lemma dispatch_root (env : Env) :
  dispatch app env root_request = Reply 200 (Some (root_body (version_of env))).
Proof.
  unfold dispatch, root_request; simpl.
  rewrite version_expression. reflexivity.
Qed.

Lemma dispatch_health (env : Env) :
  dispatch app env health_request = Reply 200 (Some health_body).
Proof. reflexivity. Qed.

(** ** Runs *)

Lemma run_cons (w : Process * OS) (e : Event) (events : list Event) :
  run w (e :: events) = run (fst (step w e)) events.
Proof. reflexivity. Qed.

Lemma run_app (w : Process * OS) (h1 h2 : list Event) :
  run w (h1 ++ h2) = run (run w h1) h2.
Proof. unfold run. apply fold_left_app. Qed.

Lemma step_request_state (w : Process * OS) (req : Request) :
  fst (step w (Incoming req)) = w.
Proof. destruct w; reflexivity. Qed.

Lemma run_requests (w : Process * OS) (history : list Event) :
  Forall is_request history -> run w history = w.
Proof.
  induction 1 as [|e history He _ IH]; [reflexivity|].
  rewrite run_cons. destruct e; try contradiction.
  rewrite step_request_state. exact IH.
Qed.

Lemma step_PORT (w : Process * OS) (e : Event) :
  proc_PORT (fst (fst (step w e))) = proc_PORT (fst w).
Proof.
  destruct w as [p os], e; simpl; try reflexivity.
  unfold close. destruct (proc_address p); reflexivity.
Qed.

Lemma run_PORT (history : list Event) (w : Process * OS) :
  proc_PORT (fst (run w history)) = proc_PORT (fst w).
Proof.
  revert w. induction history as [|e history IH]; intros w; [reflexivity|].
  rewrite run_cons, IH. apply step_PORT.
Qed.

Lemma step_address (w : Process * OS) (e : Event) :
  e ≠ Close -> proc_address (fst (fst (step w e))) = proc_address (fst w).
Proof. destruct w as [p os], e; simpl; congruence. Qed.

Lemma run_address (history : list Event) (w : Process * OS) :
  Close ∉ history -> proc_address (fst (run w history)) = proc_address (fst w).
Proof.
  revert w. induction history as [|e history IH]; intros w Hc; [reflexivity|].
  rewrite run_cons, IH.
  - apply step_address. intros ->. apply Hc. left.
  - intros Hin. apply Hc. right. exact Hin.
Qed.

Lemma step_env (w : Process * OS) (e : Event) :
  ¬ touches_env e -> proc_env (fst (fst (step w e))) = proc_env (fst w).
Proof.
  destruct w as [p os], e; simpl; try tauto; intros _; try reflexivity.
  unfold close. destruct (proc_address p); reflexivity.
Qed.

Lemma run_env (history : list Event) (w : Process * OS) :
  Forall (fun e => ¬ touches_env e) history ->
  proc_env (fst (run w history)) = proc_env (fst w).
Proof.
  intros H. revert w. induction H as [|e history He _ IH]; intros w; [reflexivity|].
  rewrite run_cons, IH. apply step_env, He.
Qed.

(** ** Start *)

Section StartFacts.

Variable port_of_string : string -> option Endpoint.
Variable pick_port : OS -> option N.

Lemma start_inv (env : Env) (os : OS) (p : Process) (os' : OS) :
  start port_of_string pick_port env os = Started p os' ->
  exists a, proc_address p = Some a /\ (a ∉ os) /\ os' = {[ a ]} ∪ os /\
            proc_env p = env /\ proc_PORT p = PORT env /\
            proc_stdout p = [ ServerRunningOnPort (PORT env) ].
Proof.
  unfold start, listen. intros H.
  destruct (listen_target port_of_string (PORT env)) as [t|]; simpl in H; [|discriminate].
  destruct (resolve pick_port t os) as [a|]; simpl in H; [|discriminate].
  unfold bind in H. case_bool_decide as Hin; simpl in H; [discriminate|].
  injection H as <- <-. exists a. simpl. auto 10.
Qed.

Lemma start_default_port (env : Env) (os : OS) :
  PORT env = VNumber 3000 ->
  start port_of_string pick_port env os =
    if bool_decide (Tcp 3000 ∈ os) then ListenFailed
    else Started {| proc_env := env; proc_PORT := VNumber 3000;
                    proc_address := Some (Tcp 3000);
                    proc_stdout := [ ServerRunningOnPort (VNumber 3000) ] |}
                 ({[ Tcp 3000 ]} ∪ os).
Proof.
  intros HP. unfold start, listen. rewrite HP. simpl.
  unfold bind. case_bool_decide; reflexivity.
Qed.

End StartFacts.

(** ** The routes of a started process *)

Section Routes.

Variable port_of_string : string -> option Endpoint.
Variable pick_port : OS -> option N.

Lemma respond_after_requests (env : Env) (os : OS) (p : Process) (os' : OS)
    (history : list Event) (req : Request) :
  start port_of_string pick_port env os = Started p os' ->
  Forall is_request history ->
  respond (fst (run (p, os') history)) req = Some (dispatch app env req).
Proof.
  intros Hs Hh. rewrite (run_requests _ _ Hh). simpl.
  destruct (start_inv _ _ _ _ _ _ Hs) as (a & Ha & _ & _ & He & _).
  unfold respond. rewrite Ha, He. reflexivity.
Qed.

(** C1: when the process is started with VERSION set to a non-empty
    string [v], every GET request to "/" (after any number of earlier
    requests) is answered with status 200 and the JSON object
    {"message": "Hello from Jenkins CI/CD!", "version": v}, whose version
    field is exactly [v]. *)
Theorem root_returns_configured_version (env : Env) (os : OS) (p : Process)
    (os' : OS) (v : string) (history : list Event) :
  env !! "VERSION" = Some v ->
  v ≠ "" ->
  start port_of_string pick_port env os = Started p os' ->
  Forall is_request history ->
  respond (fst (run (p, os') history)) root_request
    = Some (Reply 200 (Some (root_body v)))
  /\ json_get "version" (root_body v) = Some (JString v)
  /\ json_get "message" (root_body v) = Some (JString "Hello from Jenkins CI/CD!").
Proof.
  intros Hv Hne Hs Hh. split; [|split; reflexivity].
  rewrite (respond_after_requests _ _ _ _ _ _ Hs Hh), dispatch_root.
  unfold version_of. rewrite Hv.
  destruct (String.eqb_spec v ""); [contradiction | reflexivity].
Qed.

(** C2: once the process has started, every GET request to "/health" is
    answered with status 200 and the JSON object {"status": "healthy"},
    whatever the environment is and whatever happened before, as long as
    the server has not been closed. *)
Theorem health_returns_healthy (env : Env) (os : OS) (p : Process) (os' : OS)
    (history : list Event) :
  start port_of_string pick_port env os = Started p os' ->
  Close ∉ history ->
  respond (fst (run (p, os') history)) health_request
    = Some (Reply 200 (Some health_body))
  /\ json_get "status" health_body = Some (JString "healthy").
Proof.
  intros Hs Hc. split; [|reflexivity].
  destruct (start_inv _ _ _ _ _ _ Hs) as (a & Ha & _).
  unfold respond. rewrite (run_address _ _ Hc). simpl. rewrite Ha.
  reflexivity.
Qed.

(** C3: when the process is started with VERSION not set, every GET
    request to "/" is answered with a JSON body whose version field is
    the string "1.0.0". *)
Theorem root_returns_default_version (env : Env) (os : OS) (p : Process)
    (os' : OS) (history : list Event) :
  env !! "VERSION" = None ->
  start port_of_string pick_port env os = Started p os' ->
  Forall is_request history ->
  exists body,
    respond (fst (run (p, os') history)) root_request = Some (Reply 200 (Some body))
    /\ json_get "version" body = Some (JString "1.0.0").
Proof.
  intros Hv Hs Hh. exists (root_body "1.0.0"). split; [|reflexivity].
  rewrite (respond_after_requests _ _ _ _ _ _ Hs Hh), dispatch_root.
  unfold version_of. rewrite Hv. reflexivity.
Qed.

(** C4: when the process is started with PORT not set, the constant PORT
    is the number 3000 and the one bind attempt is on TCP port 3000: the
    start succeeds exactly when port 3000 is free, and the server then
    listens on port 3000 and on nothing else. *)
Theorem default_port_is_3000 (env : Env) (os : OS) :
  env !! "PORT" = None ->
  PORT env = VNumber 3000
  /\ listen_target port_of_string (PORT env) = Some (Tcp 3000)
  /\ start port_of_string pick_port env os =
       (if bool_decide (Tcp 3000 ∈ os) then ListenFailed
        else Started {| proc_env := env; proc_PORT := VNumber 3000;
                        proc_address := Some (Tcp 3000);
                        proc_stdout := [ ServerRunningOnPort (VNumber 3000) ] |}
                     ({[ Tcp 3000 ]} ∪ os)).
Proof.
  intros H. pose proof (PORT_unset _ H) as HP.
  split; [exact HP|]. split; [rewrite HP; reflexivity|].
  apply start_default_port, HP.
Qed.

End Routes.

Lemma root_returns_configured_version_witness :
  respond (fst (run ({| proc_env := {[ "VERSION" := "2.3.4" ]};
                        proc_PORT := VNumber 3000;
                        proc_address := Some (Tcp 3000);
                        proc_stdout := [ ServerRunningOnPort (VNumber 3000) ] |},
                     {[ Tcp 3000 ]} ∪ ∅)
                    [Incoming health_request; Incoming root_request]))
          root_request
    = Some (Reply 200 (Some (root_body "2.3.4")))
  /\ json_get "version" (root_body "2.3.4") = Some (JString "2.3.4")
  /\ json_get "message" (root_body "2.3.4") = Some (JString "Hello from Jenkins CI/CD!").
Proof.
  apply (root_returns_configured_version sample_port_of_string sample_pick_port
           {[ "VERSION" := "2.3.4" ]} ∅).
  - reflexivity.
  - discriminate.
  - vm_compute. reflexivity.
  - repeat constructor.
Defined.

Lemma health_returns_healthy_witness :
  respond (fst (run ({| proc_env := {[ "VERSION" := "2.3.4" ]};
                        proc_PORT := VNumber 3000;
                        proc_address := Some (Tcp 3000);
                        proc_stdout := [ ServerRunningOnPort (VNumber 3000) ] |},
                     {[ Tcp 3000 ]} ∪ ∅)
                    [Incoming root_request; DeleteEnv "VERSION"]))
          health_request
    = Some (Reply 200 (Some health_body))
  /\ json_get "status" health_body = Some (JString "healthy").
Proof.
  apply (health_returns_healthy sample_port_of_string sample_pick_port
           {[ "VERSION" := "2.3.4" ]} ∅).
  - vm_compute. reflexivity.
  - intros H. repeat (apply elem_of_cons in H as [H|H]; [discriminate H|]).
    apply elem_of_nil in H. exact H.
Defined.

Lemma root_returns_default_version_witness :
  exists body,
    respond (fst (run ({| proc_env := {[ "PORT" := "8080" ]};
                          proc_PORT := VString "8080";
                          proc_address := Some (Tcp 8080);
                          proc_stdout := [ ServerRunningOnPort (VString "8080") ] |},
                       {[ Tcp 8080 ]} ∪ {[ Tcp 3000 ]})
                      [Incoming root_request]))
            root_request = Some (Reply 200 (Some body))
    /\ json_get "version" body = Some (JString "1.0.0").
Proof.
  apply (root_returns_default_version sample_port_of_string sample_pick_port
           {[ "PORT" := "8080" ]} {[ Tcp 3000 ]}).
  - reflexivity.
  - vm_compute. reflexivity.
  - repeat constructor.
Defined.

Lemma default_port_is_3000_witness :
  let env0 : Env := {[ "VERSION" := "2.3.4" ]} in
  let os0 : OS := {[ Tcp 8080 ]} in
  PORT env0 = VNumber 3000
  /\ listen_target sample_port_of_string (PORT env0) = Some (Tcp 3000)
  /\ start sample_port_of_string sample_pick_port env0 os0 =
       (if bool_decide (Tcp 3000 ∈ os0) then ListenFailed
        else Started {| proc_env := env0; proc_PORT := VNumber 3000;
                        proc_address := Some (Tcp 3000);
                        proc_stdout := [ ServerRunningOnPort (VNumber 3000) ] |}
                     ({[ Tcp 3000 ]} ∪ os0)).
Proof.
  intros env0 os0.
  apply (default_port_is_3000 sample_port_of_string sample_pick_port env0 os0).
  reflexivity.
Defined.

(** ** Configuration over the lifetime of the process *)

Lemma step_os (w : Process * OS) (e : Event) :
  e ≠ Close -> snd (fst (step w e)) = snd w.
Proof. destruct w as [p os], e; simpl; congruence. Qed.

Lemma run_os (history : list Event) (w : Process * OS) :
  Close ∉ history -> snd (run w history) = snd w.
Proof.
  revert w. induction history as [|e history IH]; intros w Hc; [reflexivity|].
  rewrite run_cons, IH.
  - apply step_os. intros ->. apply Hc. left.
  - intros Hin. apply Hc. right. exact Hin.
Qed.

(** C5, as stated, fails: a process started with VERSION=2.3.4 answers
    GET / with version "2.3.4"; after [process.env.VERSION] is assigned
    "9.9.9" in the running process, the same request is answered with
    version "9.9.9". *)
Lemma version_follows_environment_after_start :
  let p0 := {| proc_env := {[ "VERSION" := "2.3.4" ]};
               proc_PORT := VNumber 3000;
               proc_address := Some (Tcp 3000);
               proc_stdout := [ ServerRunningOnPort (VNumber 3000) ] |} in
  let os0 : OS := {[ Tcp 3000 ]} ∪ ∅ in
  sample_start {[ "VERSION" := "2.3.4" ]} ∅ = Started p0 os0
  /\ respond p0 root_request = Some (Reply 200 (Some (root_body "2.3.4")))
  /\ respond (fst (run (p0, os0) [SetEnv "VERSION" "9.9.9"])) root_request
       = Some (Reply 200 (Some (root_body "9.9.9")))
  /\ respond (fst (run (p0, os0) [SetEnv "VERSION" "9.9.9"])) root_request
       ≠ respond p0 root_request.
Proof.
  simpl. split; [vm_compute; reflexivity|].
  split; [reflexivity|]. split; [reflexivity|]. discriminate.
Qed.

Section Lifetime.

Variable port_of_string : string -> option Endpoint.
Variable pick_port : OS -> option N.

(** C5 (amended): the port is read from the environment once, at start,
    and neither the constant PORT nor the endpoint the server listens on
    changes afterwards, whatever is done to the environment; the version
    is read from the environment at each request to "/", so a root
    response carries the value VERSION has at that moment ("1.0.0" when
    it is unset or empty); in a run that leaves the environment alone
    every root response carries the version of the start environment. *)
Theorem port_fixed_version_read_per_request (env : Env) (os : OS) (p : Process)
    (os' : OS) (history : list Event) :
  start port_of_string pick_port env os = Started p os' ->
  Close ∉ history ->
  let p' := fst (run (p, os') history) in
  proc_PORT p' = PORT env
  /\ proc_address p' = proc_address p
  /\ respond p' root_request
       = Some (Reply 200 (Some (root_body (version_of (proc_env p')))))
  /\ (Forall (fun e => ¬ touches_env e) history ->
      respond p' root_request = Some (Reply 200 (Some (root_body (version_of env))))).
Proof.
  intros Hs Hc p'.
  destruct (start_inv _ _ _ _ _ _ Hs) as (a & Ha & _ & _ & He & HP & _).
  assert (Haddr : proc_address p' = Some a).
  { unfold p'. rewrite (run_address _ _ Hc). exact Ha. }
  assert (Hresp : respond p' root_request
                  = Some (Reply 200 (Some (root_body (version_of (proc_env p')))))).
  { unfold respond. rewrite Haddr, dispatch_root. reflexivity. }
  split; [unfold p'; rewrite run_PORT; exact HP|].
  split; [rewrite Haddr, Ha; reflexivity|].
  split; [exact Hresp|].
  intros Hq. rewrite Hresp. unfold p'. rewrite (run_env _ _ Hq). simpl.
  rewrite He. reflexivity.
Qed.

End Lifetime.

Lemma port_fixed_version_read_per_request_witness :
  let p' := fst (run ({| proc_env := {[ "VERSION" := "2.3.4" ]};
                         proc_PORT := VNumber 3000;
                         proc_address := Some (Tcp 3000);
                         proc_stdout := [ ServerRunningOnPort (VNumber 3000) ] |},
                      {[ Tcp 3000 ]} ∪ ∅)
                     [SetEnv "PORT" "8080"; SetEnv "VERSION" "9.9.9"]) in
  proc_PORT p' = PORT {[ "VERSION" := "2.3.4" ]}
  /\ proc_address p' = Some (Tcp 3000)
  /\ respond p' root_request
       = Some (Reply 200 (Some (root_body (version_of (proc_env p')))))
  /\ (Forall (fun e => ¬ touches_env e) [SetEnv "PORT" "8080"; SetEnv "VERSION" "9.9.9"] ->
      respond p' root_request
        = Some (Reply 200 (Some (root_body (version_of {[ "VERSION" := "2.3.4" ]}))))).
Proof.
  apply (port_fixed_version_read_per_request sample_port_of_string sample_pick_port
           {[ "VERSION" := "2.3.4" ]} ∅).
  - vm_compute. reflexivity.
  - intros H. repeat (apply elem_of_cons in H as [H|H]; [discriminate H|]).
    apply elem_of_nil in H. exact H.
Defined.

(** ** Statelessness of request handling *)

Lemma handle_app_layers (p : Process) (req : Request) :
  handle (settings app) app_layers p req = (p, dispatch app (proc_env p) req).
Proof.
  destruct req as [m path]. unfold handle, dispatch.
  cbn [app app_get express stack settings app_layers List.app List.find
       filter list_filter].
  unfold layer_matches, route_matches.
  cbn [layer_path layer_method route_path req_path req_method].
  generalize (path_match {| case_sensitive_routing := false; strict_routing := false |}
                "/" path).
  generalize (path_match {| case_sensitive_routing := false; strict_routing := false |}
                "/health" path).
  intros [] []; destruct m; reflexivity.
Qed.

Lemma serve_app_layers (p : Process) (reqs : list Request) :
  serve (settings app) app_layers p reqs = (p, dispatch app (proc_env p) <$> reqs).
Proof.
  induction reqs as [|req reqs IH]; [reflexivity|].
  cbn [serve]. rewrite handle_app_layers, IH. reflexivity.
Qed.

(** The answer of a listening process is the one the router gives when
    it runs the callbacks. *)
Lemma respond_runs_the_callbacks (p : Process) (a : Endpoint) (req : Request) :
  proc_address p = Some a ->
  respond p req = Some (snd (handle (settings app) app_layers p req)).
Proof. intros H. unfold respond. rewrite H, handle_app_layers. reflexivity. Qed.

(** The line a successful start leaves in the output is the one the
    listen callback prints. *)
Lemma start_runs_listen_callback (port_of_string : string -> option Endpoint)
    (pick_port : OS -> option N) (env : Env) (os : OS) (p : Process) (os' : OS) :
  start port_of_string pick_port env os = Started p os' ->
  cb_process
    (listen_callback
       {| cb_process := {| proc_env := proc_env p; proc_PORT := proc_PORT p;
                           proc_address := proc_address p; proc_stdout := [] |};
          cb_res := fresh_res |}) = p.
Proof.
  intros Hs.
  destruct (start_inv _ _ _ _ _ _ Hs) as (a & Ha & _ & _ & He & HP & Hout).
  destruct p as [e pt ad out]; simpl in *. subst. reflexivity.
Qed.

(** The two callbacks of [server.js] are what keeps the process as it
    is: with a health callback that also prints, a request changes it. *)
Lemma a_printing_callback_changes_the_process :
  let p := {| proc_env := ∅; proc_PORT := VNumber 3000;
              proc_address := Some (Tcp 3000);
              proc_stdout := [ ServerRunningOnPort (VNumber 3000) ] |} in
  fst (handle (settings app) logging_layers p health_request) ≠ p
  /\ fst (handle (settings app) app_layers p health_request) = p.
Proof.
  simpl. split; [|reflexivity].
  intros H. apply (f_equal proc_stdout) in H. vm_compute in H. discriminate H.
Qed.

(** C7: the callbacks of the two routes, run by the router on the
    process, change nothing of it (environment, PORT, listening endpoint
    and output): after one request, and after any sequence of requests,
    the process is as it was. The answer depends on the environment and
    the request alone: a request handled after any earlier requests, and
    the same request handled by another process with the same
    environment, get the same answer, which is the one the route table
    gives for that environment; in particular the same status and the
    same body for GET / and GET /health. *)
Theorem request_handling_is_stateless (p1 p2 : Process) (req : Request)
    (earlier : list Request) :
  proc_env p1 = proc_env p2 ->
  fst (handle (settings app) app_layers p1 req) = p1
  /\ fst (serve (settings app) app_layers p1 earlier) = p1
  /\ snd (handle (settings app) app_layers
            (fst (serve (settings app) app_layers p1 earlier)) req)
     = snd (handle (settings app) app_layers p2 req)
  /\ snd (handle (settings app) app_layers p1 req) = dispatch app (proc_env p1) req.
Proof.
  intros He. rewrite serve_app_layers, !handle_app_layers. simpl.
  rewrite He. repeat split; reflexivity.
Qed.

Lemma request_handling_is_stateless_witness :
  let p1 := {| proc_env := {[ "VERSION" := "2.3.4" ]}; proc_PORT := VNumber 3000;
               proc_address := Some (Tcp 3000);
               proc_stdout := [ ServerRunningOnPort (VNumber 3000) ] |} in
  let p2 := {| proc_env := {[ "VERSION" := "2.3.4" ]}; proc_PORT := VString "8080";
               proc_address := Some (Tcp 8080);
               proc_stdout := [ ServerRunningOnPort (VString "8080") ] |} in
  let earlier := [ health_request; root_request; mkRequest POST "/" ] in
  fst (handle (settings app) app_layers p1 root_request) = p1
  /\ fst (serve (settings app) app_layers p1 earlier) = p1
  /\ snd (handle (settings app) app_layers
            (fst (serve (settings app) app_layers p1 earlier)) root_request)
     = snd (handle (settings app) app_layers p2 root_request)
  /\ snd (handle (settings app) app_layers p1 root_request)
     = dispatch app (proc_env p1) root_request.
Proof.
  intros p1 p2 earlier.
  apply (request_handling_is_stateless p1 p2 root_request earlier).
  reflexivity.
Defined.

(** ** The routes and the paths they match *)

Lemma path_match_root (p : string) :
  path_match (settings app) "/" p
  = (String.eqb (lower p) "/" || String.eqb (lower p) "")%bool.
Proof. reflexivity. Qed.

Lemma path_match_health (p : string) :
  path_match (settings app) "/health" p
  = (String.eqb (lower p) "/health" || String.eqb (lower p) "/health/")%bool.
Proof. reflexivity. Qed.

Lemma eqb_false_of_ne (a b : string) : a ≠ b -> String.eqb a b = false.
Proof. intros H. destruct (String.eqb_spec a b); [contradiction | reflexivity]. Qed.

Lemma find_unmatched (o : Settings) (req : Request) (routes : list Route) :
  Forall (fun r => path_match o (route_path r) (req_path req) = false) routes ->
  List.find (fun r => route_matches o r req) routes = None
  /\ filter (fun r => path_match o (route_path r) (req_path req) = true) routes = [].
Proof.
  induction 1 as [|r routes Hr _ [IH1 IH2]]; [split; reflexivity|].
  split.
  - simpl. unfold route_matches at 1. rewrite Hr. exact IH1.
  - rewrite filter_cons_False by (rewrite Hr; discriminate). exact IH2.
Qed.

(** A request whose path matches no route of the stack falls through. *)
Lemma dispatch_unmatched (a : App) (env : Env) (req : Request) :
  Forall (fun r => path_match (settings a) (route_path r) (req_path req) = false) (stack a) ->
  dispatch a env req = NotFound.
Proof.
  intros H. destruct (find_unmatched _ _ _ H) as [Hf Hl].
  unfold dispatch. rewrite Hf, Hl. simpl.
  rewrite andb_false_r. reflexivity.
Qed.

(** C8, as stated, fails: the path "/health/" is neither "/" nor
    "/health", yet a GET request to it is answered by the health handler
    with status 200 and the body {"status": "healthy"}; so is a request
    to "/HEALTH". *)
Lemma trailing_slash_reaches_health_handler :
  let p0 := {| proc_env := ∅; proc_PORT := VNumber 3000;
               proc_address := Some (Tcp 3000);
               proc_stdout := [ ServerRunningOnPort (VNumber 3000) ] |} in
  sample_start ∅ ∅ = Started p0 ({[ Tcp 3000 ]} ∪ ∅)
  /\ "/health/" ≠ "/" /\ "/health/" ≠ "/health"
  /\ respond p0 (mkRequest GET "/health/") = Some (Reply 200 (Some health_body))
  /\ respond p0 (mkRequest GET "/HEALTH") = Some (Reply 200 (Some health_body)).
Proof.
  simpl. split; [vm_compute; reflexivity|].
  split; [discriminate|]. split; [discriminate|].
  split; reflexivity.
Qed.

(** C8 (amended): exactly two routes are registered, GET "/" and GET
    "/health", and paths are matched with the framework's default
    settings, which ignore letter case and one trailing slash; a request
    whose path, lower-cased, is none of "/", "/health", "/health/" (nor
    empty) reaches no handler of the program and falls through to the
    framework's default not-found handling, whatever its method. *)
Theorem unmatched_paths_fall_through (env : Env) (req : Request) :
  lower (req_path req) ∉ [ ""; "/"; "/health"; "/health/" ] ->
  dispatch app env req = NotFound
  /\ status_of (dispatch app env req) = 404
  /\ (fun r => (route_method r, route_path r)) <$> stack app
     = [ (GET, "/"); (GET, "/health") ].
Proof.
  intros Hp.
  assert (Hd : dispatch app env req = NotFound).
  { apply dispatch_unmatched. repeat constructor.
    - change (path_match (settings app) "/" (req_path req) = false).
      rewrite path_match_root.
      rewrite !eqb_false_of_ne by (intros E; apply Hp; rewrite E; set_solver).
      reflexivity.
    - change (path_match (settings app) "/health" (req_path req) = false).
      rewrite path_match_health.
      rewrite !eqb_false_of_ne by (intros E; apply Hp; rewrite E; set_solver).
      reflexivity. }
  rewrite Hd. split; [reflexivity|]. split; reflexivity.
Qed.

Lemma unmatched_paths_fall_through_witness :
  dispatch app {[ "VERSION" := "2.3.4" ]} (mkRequest GET "/healthz") = NotFound
  /\ status_of (dispatch app {[ "VERSION" := "2.3.4" ]} (mkRequest GET "/healthz")) = 404
  /\ (fun r => (route_method r, route_path r)) <$> stack app
     = [ (GET, "/"); (GET, "/health") ].
Proof.
  apply (unmatched_paths_fall_through {[ "VERSION" := "2.3.4" ]} (mkRequest GET "/healthz")).
  vm_compute. intros H.
  repeat (apply elem_of_cons in H as [H|H]; [discriminate H|]).
  apply elem_of_nil in H. exact H.
Defined.

(** With case-sensitive and strict routing enabled the two routes match
    the two literal paths only. *)
Lemma exact_routing_two_paths (env : Env) (req : Request) :
  req_path req ≠ "/" -> req_path req ≠ "/health" ->
  dispatch exact_app env req = NotFound.
Proof.
  intros H1 H2. apply dispatch_unmatched. repeat constructor.
  - change (String.eqb (req_path req) "/" = false). apply eqb_false_of_ne, H1.
  - change (String.eqb (req_path req) "/health" = false). apply eqb_false_of_ne, H2.
Qed.

(** The answer depends on the environment through the version only. *)
Lemma dispatch_same_version (e1 e2 : Env) (req : Request) :
  version_of e1 = version_of e2 -> dispatch app e1 req = dispatch app e2 req.
Proof.
  intros H. unfold dispatch.
  cbn [app app_get express stack settings List.app List.find].
  destruct (route_matches _ _ req).
  - unfold route_handler, root_handler.
    rewrite !version_expression, H. reflexivity.
  - destruct (route_matches _ _ req); reflexivity.
Qed.

(** ** Stopping the listener *)

Lemma release_after_bind (a : Endpoint) (os : OS) :
  a ∉ os -> ({[ a ]} ∪ os) ∖ {[ a ]} = os.
Proof.
  intros H.
  rewrite difference_union_distr_l_L, difference_diag_L, (left_id_L ∅ (∪)).
  apply difference_disjoint_L, disjoint_singleton_r, H.
Qed.

Lemma bound_after_bind (a : Endpoint) (os : OS) : a ∈ {[ a ]} ∪ os.
Proof. apply elem_of_union_l, elem_of_singleton. reflexivity. Qed.

Lemma close_listening (p : Process) (os : OS) (a : Endpoint) :
  proc_address p = Some a ->
  proc_address (fst (close p os)) = None /\ snd (close p os) = os ∖ {[ a ]}.
Proof. intros H. unfold close. rewrite H. split; reflexivity. Qed.

Section Shutdown.

Variable port_of_string : string -> option Endpoint.
Variable pick_port : OS -> option N.

(** C9: the exported server can be closed, and closing it (at any point
    of a run) releases the endpoint it was bound to: the server no longer
    listens, the endpoint is free on the host again, a bind on it
    succeeds, and so does a fresh start of the program in the same
    environment. *)
Theorem close_releases_port (env : Env) (os : OS) (p : Process) (os1 : OS)
    (history : list Event) :
  start port_of_string pick_port env os = Started p os1 ->
  Close ∉ history ->
  let w := run (p, os1) (history ++ [Close]) in
  exists a,
    proc_address p = Some a
    /\ (a ∈ os1)
    /\ proc_address (fst w) = None
    /\ (a ∉ snd w)
    /\ bind a (snd w) = Some ({[ a ]} ∪ snd w)
    /\ start port_of_string pick_port env (snd w) = Started p os1.
Proof.
  intros Hs Hc w.
  destruct (start_inv _ _ _ _ _ _ Hs) as (a & Ha & Hfree & Hos & _).
  exists a.
  pose proof (run_address history (p, os1) Hc) as Haddr.
  pose proof (run_os history (p, os1) Hc) as Hhost.
  destruct (run (p, os1) history) as [p' os'] eqn:Hrun. simpl in Haddr, Hhost.
  assert (Hw : w = close p' os').
  { unfold w. rewrite run_app, Hrun. reflexivity. }
  rewrite Ha in Haddr.
  destruct (close_listening p' os' a Haddr) as [Hnone Hrel].
  assert (Hback : snd w = os).
  { rewrite Hw, Hrel, Hhost, Hos. apply release_after_bind, Hfree. }
  split; [exact Ha|]. split; [rewrite Hos; apply bound_after_bind|].
  split; [rewrite Hw; exact Hnone|].
  rewrite Hback. split; [exact Hfree|]. split; [|exact Hs].
  unfold bind. rewrite bool_decide_eq_false_2 by exact Hfree. reflexivity.
Qed.

(** C10: an empty PORT or VERSION behaves as an unset one. With PORT set
    to the empty string the constant PORT is the number 3000, as it is
    with PORT removed, and the start binds TCP port 3000; with VERSION
    set to the empty string every request is answered as it is with
    VERSION removed, and the root response carries version "1.0.0". *)
Theorem empty_value_behaves_as_unset (env : Env) (os : OS) (req : Request) :
  PORT (<[ "PORT" := "" ]> env) = PORT (delete "PORT" env)
  /\ PORT (<[ "PORT" := "" ]> env) = VNumber 3000
  /\ start port_of_string pick_port (<[ "PORT" := "" ]> env) os =
       (if bool_decide (Tcp 3000 ∈ os) then ListenFailed
        else Started {| proc_env := <[ "PORT" := "" ]> env; proc_PORT := VNumber 3000;
                        proc_address := Some (Tcp 3000);
                        proc_stdout := [ ServerRunningOnPort (VNumber 3000) ] |}
                     ({[ Tcp 3000 ]} ∪ os))
  /\ dispatch app (<[ "VERSION" := "" ]> env) req = dispatch app (delete "VERSION" env) req
  /\ dispatch app (<[ "VERSION" := "" ]> env) root_request
     = Reply 200 (Some (root_body "1.0.0"))
  /\ json_get "version" (root_body "1.0.0") = Some (JString "1.0.0").
Proof.
  assert (HP : PORT (<[ "PORT" := "" ]> env) = VNumber 3000).
  { apply PORT_empty, lookup_insert_eq. }
  assert (HV : forall e : Env, e !! "VERSION" = Some "" \/ e !! "VERSION" = None ->
                               version_of e = "1.0.0").
  { intros e [H|H]; unfold version_of; rewrite H; reflexivity. }
  split; [rewrite HP; symmetry; apply PORT_unset, lookup_delete_eq|].
  split; [exact HP|].
  split; [apply start_default_port, HP|].
  split; [|split; [|reflexivity]].
  - apply dispatch_same_version.
    rewrite !HV; [reflexivity | right; apply lookup_delete_eq | left; apply lookup_insert_eq].
  - rewrite dispatch_root, HV; [reflexivity|]. left. apply lookup_insert_eq.
Qed.

End Shutdown.

Lemma close_releases_port_witness :
  let p0 := {| proc_env := {[ "PORT" := "8080" ]}; proc_PORT := VString "8080";
               proc_address := Some (Tcp 8080);
               proc_stdout := [ ServerRunningOnPort (VString "8080") ] |} in
  let os0 : OS := {[ Tcp 3000 ]} in
  let os1 : OS := {[ Tcp 8080 ]} ∪ os0 in
  let w := run (p0, os1) ([Incoming health_request] ++ [Close]) in
  exists a,
    proc_address p0 = Some a
    /\ (a ∈ os1)
    /\ proc_address (fst w) = None
    /\ (a ∉ snd w)
    /\ bind a (snd w) = Some ({[ a ]} ∪ snd w)
    /\ start sample_port_of_string sample_pick_port {[ "PORT" := "8080" ]} (snd w)
       = Started p0 os1.
Proof.
  intros p0 os0 os1.
  apply (close_releases_port sample_port_of_string sample_pick_port
           {[ "PORT" := "8080" ]} os0 p0 os1 [Incoming health_request]).
  - vm_compute. reflexivity.
  - intros H. repeat (apply elem_of_cons in H as [H|H]; [discriminate H|]).
    apply elem_of_nil in H. exact H.
Defined.

(** ** Concrete runs *)

Example head_request_has_no_body :
  dispatch app ∅ (mkRequest HEAD "/") = Reply 200 None.
Proof. reflexivity. Qed.

Example options_request_lists_methods :
  dispatch app ∅ (mkRequest OPTIONS "/health") = AllowReply [GET; HEAD].
Proof. reflexivity. Qed.

Example post_is_not_routed :
  dispatch app ∅ (mkRequest POST "/health") = NotFound.
Proof. reflexivity. Qed.

Example second_instance_cannot_bind :
  sample_start ∅ ({[ Tcp 3000 ]} ∪ ∅) = ListenFailed.
Proof. vm_compute. reflexivity. Qed.

Example string_zero_is_truthy :
  PORT {[ "PORT" := "0" ]} = VString "0".
Proof. reflexivity. Qed.

(** * Further properties of the program *)

(** ** The complete routing table *)

(** The answer to every request, by path and method. *)
Lemma dispatch_table (env : Env) (req : Request) :
  dispatch app env req =
    if (String.eqb (lower (req_path req)) "/" || String.eqb (lower (req_path req)) "")%bool then
      match req_method req with
      | GET => Reply 200 (Some (root_body (version_of env)))
      | HEAD => Reply 200 None
      | OPTIONS => AllowReply [GET; HEAD]
      | _ => NotFound
      end
    else if (String.eqb (lower (req_path req)) "/health"
             || String.eqb (lower (req_path req)) "/health/")%bool then
      match req_method req with
      | GET => Reply 200 (Some health_body)
      | HEAD => Reply 200 None
      | OPTIONS => AllowReply [GET; HEAD]
      | _ => NotFound
      end
    else NotFound.
Proof.
  pose proof (path_match_root (req_path req)) as H1.
  pose proof (path_match_health (req_path req)) as H2.
  pose proof (version_expression env) as Hv.
  destruct req as [m path]. cbn [req_path req_method] in *.
  cbn [app app_get express settings] in H1, H2.
  unfold dispatch.
  cbn [app app_get express stack settings List.app List.find filter list_filter].
  unfold route_matches. cbn [route_path req_path req_method].
  rewrite !H1, !H2. clear H1 H2.
  generalize (String.eqb (lower path) "/" || String.eqb (lower path) "")%bool.
  generalize (String.eqb (lower path) "/health" || String.eqb (lower path) "/health/")%bool.
  intros [] []; destruct m; cbv -[js_or env_get version_of]; rewrite ?Hv; reflexivity.
Qed.

Lemma version_of_nonempty (env : Env) : version_of env ≠ "".
Proof.
  unfold version_of. destruct (env !! "VERSION") as [s|]; [|discriminate].
  destruct (String.eqb_spec s ""); [discriminate | assumption].
Qed.

(** X1: whatever the environment and the request, the program gives one
    of five answers: the root object, the health object, a bodiless 200
    (to HEAD), the automatic OPTIONS answer listing GET and HEAD, or the
    default not-found answer; so the status is always 200 or 404. *)
Theorem responses_form_a_closed_set (env : Env) (req : Request) :
  dispatch app env req ∈
    [ Reply 200 (Some (root_body (version_of env)));
      Reply 200 (Some health_body);
      Reply 200 None;
      AllowReply [GET; HEAD];
      NotFound ]
  /\ status_of (dispatch app env req) ∈ [ 200; 404 ].
Proof.
  rewrite dispatch_table.
  destruct (String.eqb _ "/" || String.eqb _ "")%bool;
    [|destruct (String.eqb _ "/health" || String.eqb _ "/health/")%bool];
    destruct (req_method req); cbn [status_of];
    split; repeat first [apply list_elem_of_here | apply list_elem_of_further].
Qed.

(** X2: a request gets the health object exactly when it is a GET whose
    path, lower-cased, is "/health" or "/health/". *)
Theorem health_handler_reached_exactly (env : Env) (req : Request) :
  dispatch app env req = Reply 200 (Some health_body)
  <-> req_method req = GET
      /\ (lower (req_path req) = "/health" \/ lower (req_path req) = "/health/").
Proof.
  rewrite dispatch_table.
  generalize (lower (req_path req)) as p. intros p.
  destruct (String.eqb_spec p "/") as [->|N1];
    [|destruct (String.eqb_spec p "") as [->|N2];
      [|destruct (String.eqb_spec p "/health") as [->|N3];
        [|destruct (String.eqb_spec p "/health/") as [->|N4]]]];
    cbn; destruct (req_method req);
    (split; [intros H; first [discriminate H | split; [reflexivity | tauto]]
            | intros [Hm [Hp|Hp]];
              first [discriminate Hm | discriminate Hp | congruence | reflexivity] ]).
Qed.

(** X3: only [app.get] routes are registered, so a POST, PUT, DELETE or
    PATCH request reaches no handler, whatever its path, "/" and
    "/health" included. *)
Theorem other_methods_are_not_routed (env : Env) (req : Request) :
  req_method req ∈ [ POST; PUT; DELETE; PATCH ] ->
  dispatch app env req = NotFound.
Proof.
  intros Hm. rewrite dispatch_table.
  destruct (req_method req);
    try (exfalso; repeat (apply elem_of_cons in Hm as [Hm|Hm]; [discriminate Hm|]);
         apply elem_of_nil in Hm; exact Hm);
    repeat match goal with |- context [if ?b then _ else _] => destruct b end;
    reflexivity.
Qed.

Lemma other_methods_are_not_routed_witness :
  dispatch app {[ "VERSION" := "2.3.4" ]} (mkRequest POST "/health") = NotFound.
Proof.
  apply (other_methods_are_not_routed {[ "VERSION" := "2.3.4" ]} (mkRequest POST "/health")).
  vm_compute. apply list_elem_of_here.
Defined.

(** X4: the version of a root response is never empty and never made
    up: it is "1.0.0" or the very string VERSION holds. *)
Theorem root_version_is_never_empty (env : Env) :
  exists v,
    dispatch app env root_request = Reply 200 (Some (root_body v))
    /\ json_get "version" (root_body v) = Some (JString v)
    /\ v ≠ ""
    /\ (v = "1.0.0" \/ env !! "VERSION" = Some v).
Proof.
  exists (version_of env). split; [apply dispatch_root|]. split; [reflexivity|].
  split; [apply version_of_nonempty|].
  unfold version_of. destruct (env !! "VERSION") as [s|]; [|left; reflexivity].
  destruct (String.eqb s ""); [left | right]; reflexivity.
Qed.

(** ** Environment variables other than VERSION *)

Lemma version_of_insert_other (env : Env) (name value : string) :
  name ≠ "VERSION" -> version_of (<[ name := value ]> env) = version_of env.
Proof. intros H. unfold version_of. rewrite lookup_insert_ne by exact H. reflexivity. Qed.

Lemma version_of_delete_other (env : Env) (name : string) :
  name ≠ "VERSION" -> version_of (delete name env) = version_of env.
Proof. intros H. unfold version_of. rewrite lookup_delete_ne by exact H. reflexivity. Qed.

Lemma step_keeps_version (w : Process * OS) (e : Event) :
  keeps_version e ->
  version_of (proc_env (fst (fst (step w e)))) = version_of (proc_env (fst w))
  /\ proc_address (fst (fst (step w e))) = proc_address (fst w).
Proof.
  destruct w as [p os], e; simpl; intros H; try contradiction; split; try reflexivity.
  - apply version_of_insert_other, H.
  - apply version_of_delete_other, H.
Qed.

Lemma run_keeps_version (history : list Event) (w : Process * OS) :
  Forall keeps_version history ->
  version_of (proc_env (fst (run w history))) = version_of (proc_env (fst w))
  /\ proc_address (fst (run w history)) = proc_address (fst w).
Proof.
  intros H. revert w. induction H as [|e history He _ IH]; intros w; [split; reflexivity|].
  rewrite run_cons. destruct (IH (fst (step w e))) as [IH1 IH2].
  destruct (step_keeps_version w e He) as [S1 S2].
  rewrite IH1, IH2, S1, S2. split; reflexivity.
Qed.

(** X5: the handlers read no environment variable but VERSION: setting
    or deleting any other variable in the running process (PORT and the
    ENVIRONMENT variable passed by the pipeline included), any number of
    times, changes the answer to no request. *)
Theorem other_variables_do_not_matter (w : Process * OS) (history : list Event)
    (req : Request) :
  Forall keeps_version history ->
  respond (fst (run w history)) req = respond (fst w) req.
Proof.
  intros H. destruct (run_keeps_version history w H) as [Hv Ha].
  unfold respond. rewrite Ha.
  destruct (proc_address (fst w)); [|reflexivity].
  rewrite (dispatch_same_version _ _ req Hv). reflexivity.
Qed.

Lemma other_variables_do_not_matter_witness :
  let w : Process * OS :=
    ({| proc_env := {[ "VERSION" := "2.3.4" ]}; proc_PORT := VNumber 3000;
        proc_address := Some (Tcp 3000);
        proc_stdout := [ ServerRunningOnPort (VNumber 3000) ] |},
     {[ Tcp 3000 ]}) in
  let history := [ SetEnv "ENVIRONMENT" "staging"; SetEnv "PORT" "8080";
                   Incoming health_request; DeleteEnv "ENVIRONMENT" ] in
  respond (fst (run w history)) root_request = respond (fst w) root_request.
Proof.
  intros w history.
  apply (other_variables_do_not_matter w history root_request).
  repeat constructor; discriminate.
Defined.

Lemma close_stops_listening (p : Process) (os : OS) :
  proc_address (fst (close p os)) = None.
Proof.
  unfold close. destruct (proc_address p) eqn:E; [reflexivity | exact E].
Qed.

Section Instances.

Variable port_of_string : string -> option Endpoint.
Variable pick_port : OS -> option N.

(** X7: a non-empty PORT replaces the default, as the string it is: the
    constant PORT is that string (the string "0" too, which is truthy),
    and when the platform reads it as the TCP port [n] (not 0) the start
    succeeds exactly when [n] is free and binds [n], not 3000. *)
Theorem configured_port_is_used (env : Env) (os : OS) (s : string) (n : N) :
  env !! "PORT" = Some s ->
  s ≠ "" ->
  port_of_string s = Some (Tcp n) ->
  n ≠ 0%N ->
  PORT env = VString s
  /\ start port_of_string pick_port env os =
       (if bool_decide (Tcp n ∈ os) then ListenFailed
        else Started {| proc_env := env; proc_PORT := VString s;
                        proc_address := Some (Tcp n);
                        proc_stdout := [ ServerRunningOnPort (VString s) ] |}
                     ({[ Tcp n ]} ∪ os)).
Proof.
  intros He Hs Hp Hn. pose proof (PORT_set env s He Hs) as HP.
  split; [exact HP|].
  unfold start, listen. rewrite HP. simpl. rewrite Hp. simpl.
  destruct n as [|q]; [contradiction|]. simpl.
  unfold bind. case_bool_decide; reflexivity.
Qed.

(** X8: while an instance listens on a fixed endpoint (anything but
    port 0), a second instance configured with the same PORT cannot
    start on that host: its one bind attempt fails. *)
Theorem second_instance_cannot_listen (env env2 : Env) (os : OS) (p : Process)
    (os1 : OS) :
  start port_of_string pick_port env os = Started p os1 ->
  PORT env2 = PORT env ->
  listen_target port_of_string (PORT env) ≠ Some (Tcp 0) ->
  start port_of_string pick_port env2 os1 = ListenFailed.
Proof.
  intros Hs HP Ht.
  destruct (start_inv _ _ _ _ _ _ Hs) as (a & Ha & _ & Hos & _).
  unfold start, listen in Hs |- *. rewrite HP.
  destruct (listen_target port_of_string (PORT env)) as [t|]; simpl in *; [|reflexivity].
  assert (Hr : forall o, resolve pick_port t o = Some t).
  { intros o. destruct t as [[|q]|nm]; try reflexivity. contradiction Ht. reflexivity. }
  rewrite Hr in Hs. rewrite Hr. simpl in *.
  unfold bind in Hs |- *.
  case_bool_decide as Hin; simpl in Hs; [discriminate|].
  injection Hs as <- <-. simpl in Ha.
  rewrite bool_decide_eq_true_2 by apply bound_after_bind.
  reflexivity.
Qed.

(** X10: the repository's test suite passes on every successful start,
    whatever PORT and VERSION are: GET / has status 200 and a message
    containing "Hello", GET /health has status 200 and status "healthy";
    and [afterAll] leaves the server closed and the host as it was
    before the start. *)
Theorem api_tests_pass (env : Env) (os : OS) (p : Process) (os' : OS) :
  start port_of_string pick_port env os = Started p os' ->
  fst (api_tests (p, os')) = true
  /\ proc_address (fst (snd (api_tests (p, os')))) = None
  /\ snd (snd (api_tests (p, os'))) = os.
Proof.
  intros Hs.
  destruct (start_inv _ _ _ _ _ _ Hs) as (a & Ha & Hfree & Hos & _).
  split; [|split].
  - unfold api_tests, test_root_returns_welcome_message,
      test_health_returns_healthy_status, supertest_get, respond. simpl.
    rewrite Ha.
    change (mkRequest GET "/") with root_request.
    change (mkRequest GET "/health") with health_request.
    rewrite dispatch_root, dispatch_health. reflexivity.
  - apply close_stops_listening.
  - unfold api_tests. simpl.
    destruct (close_listening p os' a Ha) as [_ Hrel].
    rewrite Hrel, Hos. apply release_after_bind, Hfree.
Qed.

End Instances.

Lemma configured_port_is_used_witness :
  let env0 : Env := {[ "PORT" := "8080" ]} in
  let os0 : OS := {[ Tcp 3000 ]} in
  PORT env0 = VString "8080"
  /\ start sample_port_of_string sample_pick_port env0 os0 =
       (if bool_decide (Tcp 8080 ∈ os0) then ListenFailed
        else Started {| proc_env := env0; proc_PORT := VString "8080";
                        proc_address := Some (Tcp 8080);
                        proc_stdout := [ ServerRunningOnPort (VString "8080") ] |}
                     ({[ Tcp 8080 ]} ∪ os0)).
Proof.
  intros env0 os0.
  apply (configured_port_is_used sample_port_of_string sample_pick_port env0 os0 "8080" 8080).
  - reflexivity.
  - discriminate.
  - reflexivity.
  - discriminate.
Defined.

Lemma second_instance_cannot_listen_witness :
  start sample_port_of_string sample_pick_port {[ "VERSION" := "9.9.9" ]}
        ({[ Tcp 3000 ]} ∪ ∅)
    = ListenFailed.
Proof.
  apply (second_instance_cannot_listen sample_port_of_string sample_pick_port
           {[ "VERSION" := "2.3.4" ]} {[ "VERSION" := "9.9.9" ]} ∅
           {| proc_env := {[ "VERSION" := "2.3.4" ]}; proc_PORT := VNumber 3000;
              proc_address := Some (Tcp 3000);
              proc_stdout := [ ServerRunningOnPort (VNumber 3000) ] |}).
  - vm_compute. reflexivity.
  - reflexivity.
  - discriminate.
Defined.

Lemma api_tests_pass_witness :
  let p0 := {| proc_env := {[ "VERSION" := "2.3.4" ]}; proc_PORT := VNumber 3000;
               proc_address := Some (Tcp 3000);
               proc_stdout := [ ServerRunningOnPort (VNumber 3000) ] |} in
  let os0 : OS := {[ Tcp 8080 ]} in
  fst (api_tests (p0, {[ Tcp 3000 ]} ∪ os0)) = true
  /\ proc_address (fst (snd (api_tests (p0, {[ Tcp 3000 ]} ∪ os0)))) = None
  /\ snd (snd (api_tests (p0, {[ Tcp 3000 ]} ∪ os0))) = os0.
Proof.
  intros p0 os0.
  apply (api_tests_pass sample_port_of_string sample_pick_port
           {[ "VERSION" := "2.3.4" ]} os0 p0).
  vm_compute. reflexivity.
Defined.

(** * Properties of the pipeline steps *)

(** ** Cleanup of old images *)

Lemma grep_v_app (pattern : string) (l1 l2 : list string) :
  grep_v pattern (l1 ++ l2)%list = (grep_v pattern l1 ++ grep_v pattern l2)%list.
Proof. apply List.filter_app. Qed.

Lemma grep_v_length (pattern : string) (lines : list string) :
  length (grep_v pattern lines) <= length lines.
Proof.
  induction lines as [|l lines IH]; simpl; [lia|].
  destruct (negb (includes pattern l)); simpl; lia.
Qed.

Lemma grep_v_elem (pattern line : string) (lines : list string) :
  line ∈ grep_v pattern lines -> line ∈ lines /\ includes pattern line = false.
Proof.
  unfold grep_v. rewrite !list_elem_of_In, List.filter_In.
  intros [Hin Hb]. split; [exact Hin|].
  destruct (includes pattern line); [discriminate Hb | reflexivity].
Qed.

(** X12: the cleanup keeps the five newest versioned images: once the
    listing has shown five lines without "latest" (lines with "latest"
    among them do not count), exactly the first fields of the remaining
    lines without "latest" are handed to [docker rmi], and nothing of
    the part before. *)
Theorem cleanup_keeps_five_newest (newest older : list string) :
  length (grep_v "latest" newest) = 5 ->
  cleanup_old_images (newest ++ older)%list = awk_print_1 <$> grep_v "latest" older.
Proof.
  intros H. unfold cleanup_old_images, tail_from.
  rewrite grep_v_app. change (6 - 1) with 5.
  rewrite drop_app_length' by (symmetry; exact H).
  reflexivity.
Qed.

Lemma cleanup_keeps_five_newest_witness :
  cleanup_old_images
    ([ "a1b2c3 47"; "a1b2c3 latest"; "d4e5f6 46"; "0789ab 45"; "cdef01 44"; "234567 43" ]
     ++ [ "89abcd 42"; "ef0123 41" ])%list
  = awk_print_1 <$> grep_v "latest" [ "89abcd 42"; "ef0123 41" ].
Proof.
  apply (cleanup_keeps_five_newest
           [ "a1b2c3 47"; "a1b2c3 latest"; "d4e5f6 46"; "0789ab 45"; "cdef01 44"; "234567 43" ]
           [ "89abcd 42"; "ef0123 41" ]).
  reflexivity.
Defined.

(** X13: the cleanup removes all but five of the lines without
    "latest": with five or fewer of them [docker rmi] gets nothing, and
    it never gets more than the listing has lines beyond five. *)
Theorem cleanup_count (docker_images : list string) :
  length (cleanup_old_images docker_images)
    = length (grep_v "latest" docker_images) - 5
  /\ length (cleanup_old_images docker_images) <= length docker_images - 5.
Proof.
  unfold cleanup_old_images, tail_from. change (6 - 1) with 5.
  rewrite length_fmap, length_drop.
  pose proof (grep_v_length "latest" docker_images). split; lia.
Qed.

(** X14: no line that contains "latest" is ever selected for removal:
    whatever [docker rmi] is given is the first field of a line of the
    listing without "latest". *)
Theorem cleanup_never_selects_latest (docker_images : list string) (id : string) :
  id ∈ cleanup_old_images docker_images ->
  exists line,
    line ∈ docker_images
    /\ includes "latest" line = false
    /\ awk_print_1 line = id.
Proof.
  unfold cleanup_old_images, tail_from. intros H.
  apply list_elem_of_fmap in H as (line & -> & Hin).
  apply (subseteq_drop _ _ line) in Hin.
  apply grep_v_elem in Hin as [Hin Hno].
  exists line. split; [exact Hin|]. split; [exact Hno | reflexivity].
Qed.

Lemma cleanup_never_selects_latest_witness :
  exists line,
    line ∈ [ "a1b2c3 47"; "a1b2c3 latest"; "d4e5f6 46"; "0789ab 45"; "cdef01 44";
             "234567 43"; "89abcd 42"; "ef0123 latest-old"; "456789 41" ]
    /\ includes "latest" line = false
    /\ awk_print_1 line = "456789".
Proof.
  apply (cleanup_never_selects_latest
           [ "a1b2c3 47"; "a1b2c3 latest"; "d4e5f6 46"; "0789ab 45"; "cdef01 44";
             "234567 43"; "89abcd 42"; "ef0123 latest-old"; "456789 41" ] "456789").
  vm_compute. apply list_elem_of_further, list_elem_of_here.
Defined.

Lemma take_field_app (id rest : string) :
  take_field id = id -> take_field (id ++ String " " rest) = id.
Proof.
  induction id as [|c id IH]; simpl; [reflexivity|].
  destruct (awk_blank c); [discriminate|].
  intros H. injection H as H. rewrite (IH H). reflexivity.
Qed.

(** X15: on a line in the format "ID TAG" of the listing, with an ID
    that is not empty and contains no blank, [awk '{print $1}'] prints
    the ID, whatever the tag is. *)
Theorem awk_prints_the_image_id (id tag : string) :
  id ≠ "" ->
  take_field id = id ->
  awk_print_1 (id ++ String " " tag) = id.
Proof.
  intros Hne Hf. unfold awk_print_1.
  assert (Hs : skip_blanks (id ++ String " " tag) = id ++ String " " tag).
  { destruct id as [|c id]; [contradiction|]. simpl in *.
    destruct (awk_blank c); [discriminate Hf | reflexivity]. }
  rewrite Hs. apply take_field_app, Hf.
Qed.

Lemma awk_prints_the_image_id_witness :
  awk_print_1 ("a1b2c3d4e5f6" ++ String " " "build 47") = "a1b2c3d4e5f6".
Proof.
  apply (awk_prints_the_image_id "a1b2c3d4e5f6" "build 47").
  - discriminate.
  - reflexivity.
Defined.

(** ** Version bump *)

Lemma tr_d_app (c : ascii) (a b : string) :
  tr_d c (a ++ b) = tr_d c a ++ tr_d c b.
Proof.
  induction a as [|x a IH]; simpl; [reflexivity|].
  destruct (Ascii.eqb x c); simpl; rewrite IH; reflexivity.
Qed.

Lemma trim_end_newline (s : string) :
  trim_end (s ++ String newline EmptyString) = trim_end s.
Proof.
  induction s as [|c s IH]; [reflexivity|].
  simpl. rewrite IH. reflexivity.
Qed.

Lemma trim_newline (s : string) :
  trim (s ++ String newline EmptyString) = trim s.
Proof.
  unfold trim. induction s as [|c s IH]; [reflexivity|].
  simpl. destruct (trim_blank c); [exact IH|].
  apply (trim_end_newline (String c s)).
Qed.

(** X16: the version bump recovers the bare version: when
    [npm pkg get version] prints the version between double quotes,
    followed by a newline, NEW_APP_VERSION is the version itself,
    provided it contains no double quote and neither starts nor ends
    with a blank. *)
Theorem version_bump_unquotes (v : string) :
  tr_d double_quote v = v ->
  trim v = v ->
  NEW_APP_VERSION
    (String double_quote (v ++ String double_quote (String newline EmptyString)))
  = v.
Proof.
  intros Hq Ht. unfold NEW_APP_VERSION.
  change (tr_d double_quote (String double_quote ?s)) with (tr_d double_quote s).
  rewrite tr_d_app, Hq.
  change (tr_d double_quote (String double_quote (String newline EmptyString)))
    with (String newline EmptyString).
  rewrite trim_newline. exact Ht.
Qed.

Lemma version_bump_unquotes_witness :
  NEW_APP_VERSION
    (String double_quote ("1.0.1" ++ String double_quote (String newline EmptyString)))
  = "1.0.1".
Proof.
  apply (version_bump_unquotes "1.0.1"); reflexivity.
Defined.
